(** * VertexAI error module (packages/vertexai/src/errors.ts)

    A shallow embedding of the error taxonomy of the VertexAI package:
    the error codes, the message templates, the shapes of the error
    parameters, the [VertexAIError] class and the [createVertexError]
    entry point, with the JavaScript behaviour that the code relies on
    written out: values, property access, object spread, abrupt
    completions and the resolution of identifiers through the lexical
    scope chain. *)

From Stdlib Require Import String Ascii List ZArith Bool.
From Stdlib Require Import DecimalString.
Import ListNotations.
Open Scope string_scope.

Set Warnings "-register-all".

(** ** JavaScript values and completions *)

(** An object is the list of its own enumerable properties in insertion
    order; a function or a class is opaque and carries its name only.
    Numbers are the integers (the module handles HTTP status codes). *)
Inductive value : Type :=
| VUndefined
| VNull
| VBoolean (b : bool)
| VNumber (n : Z)
| VString (s : string)
| VArray (items : list value)
| VObject (props : list (string * value))
| VFunction (name : string).

Definition frame : Type := list (string * value).

Inductive exception : Type :=
| ReferenceError (identifier : string)
| TypeError (reading : string)
| Thrown (v : value).

(** The outcome of evaluating a piece of code: a value, or a throw. *)
Inductive completion (A : Type) : Type :=
| Normal (a : A)
| Throw (e : exception).

Arguments Normal {A} a.
Arguments Throw {A} e.

Definition bind {A B : Type} (c : completion A) (k : A -> completion B)
  : completion B :=
  match c with
  | Normal a => k a
  | Throw e => Throw e
  end.

Notation "x <- c ;; k" := (bind c (fun x => k))
  (at level 61, c at next level, right associativity).

Definition returns {A : Type} (c : completion A) : bool :=
  match c with Normal _ => true | Throw _ => false end.

(** ** Properties *)

Fixpoint lookup (k : string) (f : frame) : option value :=
  match f with
  | [] => None
  | (k', v) :: rest => if String.eqb k k' then Some v else lookup k rest
  end.

(** [o[k] = v]: an existing property keeps its position. *)
Fixpoint set_prop (f : frame) (k : string) (v : value) : frame :=
  match f with
  | [] => [(k, v)]
  | (k', v') :: rest =>
      if String.eqb k k' then (k', v) :: rest
      else (k', v') :: set_prop rest k v
  end.

Definition keys (f : frame) : list string := map fst f.

Definition index_key (i : nat) : string :=
  NilZero.string_of_uint (Nat.to_uint i).

Fixpoint indexed {A : Type} (i : nat) (l : list A) : list (string * A) :=
  match l with
  | [] => []
  | x :: rest => (index_key i, x) :: indexed (S i) rest
  end.

Fixpoint chars (s : string) : list value :=
  match s with
  | EmptyString => []
  | String c rest => VString (String c EmptyString) :: chars rest
  end.

(** [v.k]: reading a property of [undefined] or [null] throws; a
    missing property reads as [undefined]. *)
Definition get (v : value) (k : string) : completion value :=
  match v with
  | VUndefined | VNull => Throw (TypeError k)
  | VObject props =>
      Normal (match lookup k props with Some x => x | None => VUndefined end)
  | VArray items =>
      Normal (if String.eqb k "length" then VNumber (Z.of_nat (length items))
              else match lookup k (indexed 0 items) with
                   | Some x => x
                   | None => VUndefined
                   end)
  | VString s =>
      Normal (if String.eqb k "length" then VNumber (Z.of_nat (String.length s))
              else match lookup k (indexed 0 (chars s)) with
                   | Some x => x
                   | None => VUndefined
                   end)
  | VBoolean _ | VNumber _ | VFunction _ => Normal VUndefined
  end.

(** The own enumerable properties that [{ ...v }] copies. *)
Definition own_properties (v : value) : frame :=
  match v with
  | VObject props => props
  | VArray items => indexed 0 items
  | VString s => indexed 0 (chars s)
  | _ => []
  end.

(** [{ ...v }]: a fresh object, the properties defined one by one. *)
Definition spread (v : value) : value :=
  VObject (fold_left (fun acc kv => set_prop acc (fst kv) (snd kv))
                     (own_properties v) []).

Definition truthy (v : value) : bool :=
  match v with
  | VUndefined | VNull => false
  | VBoolean b => b
  | VNumber n => negb (Z.eqb n 0)
  | VString s => negb (String.eqb s EmptyString)
  | VArray _ | VObject _ | VFunction _ => true
  end.

(** [a || b] on already evaluated operands. *)
Definition or_else (a b : value) : value := if truthy a then a else b.

(** ** Identifier resolution *)

(** A scope chain lists the frames from the innermost outwards.  An
    identifier bound in none of them is a [ReferenceError]. *)
Fixpoint resolve (chain : list frame) (name : string) : completion value :=
  match chain with
  | [] => Throw (ReferenceError name)
  | f :: outer =>
      match lookup name f with
      | Some v => Normal v
      | None => resolve outer name
      end
  end.

(** ** The error codes and their templates (lines 21-49) *)

Inductive VertexAIErrorCode : Type :=
| FETCH_ERROR
| INVALID_CONTENT
| NO_API_KEY
| NO_MODEL
| NO_PROJECT_ID
| PARSE_FAILED
| BAD_RESPONSE
| RESPONSE_ERROR.

Definition code_value (c : VertexAIErrorCode) : string :=
  match c with
  | FETCH_ERROR => "fetch-error"
  | INVALID_CONTENT => "invalid-content"
  | NO_API_KEY => "no-api-key"
  | NO_MODEL => "no-model"
  | NO_PROJECT_ID => "no-project-id"
  | PARSE_FAILED => "parse-failed"
  | BAD_RESPONSE => "bad-response"
  | RESPONSE_ERROR => "response-error"
  end.

(** The double quote character of the two configuration messages. *)
Definition dquote : string := String (ascii_of_nat 34) EmptyString.

Definition VertexAIErrorMessages (c : VertexAIErrorCode) : string :=
  match c with
  | FETCH_ERROR => "Error fetching from {$url}: {$message}"
  | INVALID_CONTENT => "Content formatting error: {$message}"
  | NO_API_KEY =>
      ("The " ++ dquote ++ "apiKey" ++ dquote ++
       " field is empty in the local Firebase config. Firebase VertexAI requires this field to")
      ++ "contain a valid API key."
  | NO_PROJECT_ID =>
      ("The " ++ dquote ++ "projectId" ++ dquote ++
       " field is empty in the local Firebase config. Firebase VertexAI requires this field to")
      ++ "contain a valid project ID."
  | NO_MODEL =>
      "Must provide a model name. " ++
      "Example: getGenerativeModel({ model: 'my-model-name' })"
  | PARSE_FAILED => "Parsing failed: {$message}"
  | BAD_RESPONSE =>
      "Bad response from {$url}: [{$status} {$statusText}] {$message}"
  | RESPONSE_ERROR =>
      "Response error: {$message}. Response body stored in " ++
      "error.customData.response"
  end.

(** The object literal of lines 32-49, its keys in the order written. *)
Definition error_map (messages : VertexAIErrorCode -> string) : value :=
  VObject (map (fun c => (code_value c, VString (messages c)))
               [FETCH_ERROR; INVALID_CONTENT; NO_API_KEY; NO_PROJECT_ID;
                NO_MODEL; PARSE_FAILED; BAD_RESPONSE; RESPONSE_ERROR]).

(** ** Declared shapes (lines 55-78 and 94-115) *)

(** The fragment of the TypeScript types that the declarations of the
    module use.  A field is [(name, (optional, type))]. *)
Inductive ts_type : Type :=
| TString
| TNumber
| TUnknown
| TArray (elem : ts_type)
| TRecord (elem : ts_type)
| TObject (fields : list (string * (bool * ts_type))) (index : option ts_type)
| TImported (name : string).

Definition field_names (t : ts_type) : list string :=
  match t with
  | TObject fields _ => map fst fields
  | _ => []
  end.

Definition optional_fields (t : ts_type) : list string :=
  match t with
  | TObject fields _ =>
      map fst (filter (fun f => fst (snd f)) fields)
  | _ => []
  end.

Definition required_fields (t : ts_type) : list string :=
  match t with
  | TObject fields _ =>
      map fst (filter (fun f => negb (fst (snd f))) fields)
  | _ => []
  end.

Definition index_signature (t : ts_type) : option ts_type :=
  match t with
  | TObject _ index => index
  | _ => None
  end.

Definition is_undefined (v : value) : bool :=
  match v with VUndefined => true | _ => false end.

Definition declares (fields : list (string * (bool * ts_type))) (k : string)
  : bool :=
  existsb (String.eqb k) (map fst fields).

(** Whether an object literal is accepted at a declared type: each
    declared field is present with its type (an optional one may be
    absent or [undefined]), and any other property needs the index
    signature.  A type imported from another file admits any object. *)
Fixpoint has_type (t : ts_type) (v : value) {struct t} : bool :=
  match t with
  | TString => match v with VString _ => true | _ => false end
  | TNumber => match v with VNumber _ => true | _ => false end
  | TUnknown => true
  | TArray e =>
      match v with
      | VArray items => forallb (has_type e) items
      | _ => false
      end
  | TRecord e =>
      match v with
      | VObject props => forallb (fun kv => has_type e (snd kv)) props
      | _ => false
      end
  | TObject fields index =>
      match v with
      | VObject props =>
          (fix declared (fs : list (string * (bool * ts_type))) : bool :=
             match fs with
             | [] => true
             | (name, (opt, ty)) :: rest =>
                 match lookup name props with
                 | None => opt
                 | Some x => (opt && is_undefined x) || has_type ty x
                 end && declared rest
             end) fields
          && forallb (fun kv =>
                        declares fields (fst kv)
                        || match index with
                           | Some ty => has_type ty (snd kv)
                           | None => false
                           end) props
      | _ => false
      end
  | TImported _ => match v with VObject _ => true | _ => false end
  end.

(** [interface ErrorDetails] (lines 55-61). *)
Definition ErrorDetails : ts_type :=
  TObject [("@type", (true, TString));
           ("reason", (true, TString));
           ("domain", (true, TString));
           ("metadata", (true, TRecord TUnknown))]
          (Some TUnknown).

(** [interface VertexAIErrorParams] (lines 63-78): the codes that are
    keys of it, each with the shape of its parameters. *)
Definition VertexAIErrorParams (c : VertexAIErrorCode) : option ts_type :=
  match c with
  | FETCH_ERROR =>
      Some (TObject [("url", (false, TString));
                     ("message", (false, TString))] None)
  | INVALID_CONTENT =>
      Some (TObject [("message", (false, TString))] None)
  | PARSE_FAILED =>
      Some (TObject [("message", (false, TString))] None)
  | BAD_RESPONSE =>
      Some (TObject [("url", (false, TString));
                     ("status", (false, TNumber));
                     ("statusText", (false, TString));
                     ("message", (false, TString));
                     ("errorDetails", (true, TArray ErrorDetails))] None)
  | RESPONSE_ERROR =>
      Some (TObject [("message", (false, TString));
                     ("response",
                      (false, TImported "GenerateContentResponse"))] None)
  | NO_API_KEY | NO_MODEL | NO_PROJECT_ID => None
  end.

(** The rest parameter [...data] of [createVertexError]: one record for
    a key of [VertexAIErrorParams], no argument otherwise. *)
Definition well_typed_call (c : VertexAIErrorCode) (data : list value)
  : bool :=
  match VertexAIErrorParams c, data with
  | Some t, [p] => has_type t p
  | None, [] => true
  | _, _ => false
  end.

(** The declared type of [VertexAIError.customData] (lines 94-115). *)
Definition customData_type : ts_type :=
  TObject [("url", (true, TString));
           ("status", (true, TString));
           ("statusText", (true, TString));
           ("errorDetails", (true, TArray ErrorDetails));
           ("response", (true, TImported "GenerateContentResponse"))]
          None.

(** The fields that the parameters of a code declare and that
    [customData] has a place for: for a code without parameters, none;
    the free-text [message] is not among them. *)
Definition diagnostic_params (c : VertexAIErrorCode) : list string :=
  match VertexAIErrorParams c with
  | Some t =>
      filter (fun name =>
                existsb (String.eqb name) (field_names customData_type))
             (field_names t)
  | None => []
  end.

(** ** Placeholders *)

(** The scanner behind the [{$name}] tokens: a token is an opening
    brace, a dollar sign, one or more characters other than a closing
    brace, and a closing brace. *)
Inductive scan_state : Type :=
| Outside
| AfterBrace
| InName (name : string).

Definition pending (st : scan_state) : string :=
  match st with
  | Outside => EmptyString
  | AfterBrace => "{"
  | InName name => "{$" ++ name
  end.

Definition is_char (c : ascii) (s : string) : bool :=
  String.eqb (String c EmptyString) s.

(** [scan subst st s]: the text [s] read from state [st], each complete
    token [{$name}] replaced by [subst name]. *)
Fixpoint scan (subst : string -> string) (st : scan_state) (s : string)
  : string :=
  match s with
  | EmptyString => pending st
  | String c rest =>
      match st with
      | Outside =>
          if is_char c "{" then scan subst AfterBrace rest
          else String c (scan subst Outside rest)
      | AfterBrace =>
          if is_char c "$" then scan subst (InName EmptyString) rest
          else if is_char c "{" then String c (scan subst AfterBrace rest)
          else "{" ++ String c (scan subst Outside rest)
      | InName name =>
          if is_char c "}" then
            match name with
            | EmptyString => "{$}" ++ scan subst Outside rest
            | _ => subst name ++ scan subst Outside rest
            end
          else scan subst (InName (name ++ String c EmptyString)) rest
      end
  end.

(** The names of the complete tokens of a text, left to right. *)
Fixpoint tokens (st : scan_state) (s : string) : list string :=
  match s with
  | EmptyString => []
  | String c rest =>
      match st with
      | Outside =>
          if is_char c "{" then tokens AfterBrace rest
          else tokens Outside rest
      | AfterBrace =>
          if is_char c "$" then tokens (InName EmptyString) rest
          else if is_char c "{" then tokens AfterBrace rest
          else tokens Outside rest
      | InName name =>
          if is_char c "}" then
            match name with
            | EmptyString => tokens Outside rest
            | _ => name :: tokens Outside rest
            end
          else tokens (InName (name ++ String c EmptyString)) rest
      end
  end.

Definition placeholders (s : string) : list string := tokens Outside s.

(** ** The classes of '@firebase/util' *)

(** What [new ErrorFactory(service, serviceName, errors)] is given
    (lines 80-84). *)
Record ErrorFactory : Type := {
  service : string;
  serviceName : string;
  errors : VertexAIErrorCode -> string
}.

Module FirebaseUtil.

(** The policy for a token whose field the parameters lack; the
    description of the registry leaves the choice open. *)
Inductive missing_policy : Type :=
| KeepToken
| SubstituteEmpty.

Fixpoint join (sep : string) (l : list string) : string :=
  match l with
  | [] => EmptyString
  | [x] => x
  | x :: rest => x ++ sep ++ join sep rest
  end.

(** The string form [String(v)] of a value. *)
Fixpoint to_string (v : value) : string :=
  match v with
  | VUndefined => "undefined"
  | VNull => "null"
  | VBoolean b => if b then "true" else "false"
  | VNumber n => NilZero.string_of_int (Z.to_int n)
  | VString s => s
  | VArray items =>
      join "," (map (fun x => match x with
                              | VUndefined | VNull => EmptyString
                              | _ => to_string x
                              end) items)
  | VObject _ => "[object Object]"
  | VFunction name => "function " ++ name ++ "() { [native code] }"
  end.

(** Modelled from the spec: the placeholder substitution of
    [ErrorFactory], which lives in '@firebase/util' and not in this
    file.  Each [{$fieldName}] is replaced by the string form of
    [params[fieldName]]; for an absent field the token is kept or
    replaced by the empty string, according to the policy. *)
Definition replaceTemplate (policy : missing_policy) (template : string)
  (params : frame) : string :=
  scan (fun name =>
          match lookup name params with
          | Some v => to_string v
          | None =>
              match policy with
              | KeepToken => "{$" ++ name ++ "}"
              | SubstituteEmpty => EmptyString
              end
          end) Outside template.

Definition diagnostic_fields : list string :=
  ["url"; "status"; "statusText"; "errorDetails"; "response"].

(** Modelled from the spec: [ErrorFactory.create] of '@firebase/util',
    missing from this file.  It looks the template of the code up,
    substitutes the parameters into it, and assembles [customData] from
    the diagnostic fields of the parameters; the free-text [message] is
    consumed by the substitution and not echoed. *)
Definition create (policy : missing_policy) (factory : ErrorFactory)
  (code : VertexAIErrorCode) (data : list value) : completion value :=
  let params := match data with
                | p :: _ => own_properties p
                | [] => []
                end in
  Normal (VObject
    [("code", VString (code_value code));
     ("message", VString (replaceTemplate policy (errors factory code) params));
     ("customData",
      VObject (filter (fun kv => existsb (String.eqb (fst kv)) diagnostic_fields)
                      params))]).

(** Modelled from the spec: the constructor of [FirebaseError] of
    '@firebase/util', missing from this file.  The error owns its kind,
    its rendered message and its [customData] bag. *)
Definition FirebaseError (code message customData : value)
  : completion frame :=
  Normal [("code", code); ("message", message); ("customData", customData)].

End FirebaseUtil.

(** ** The module (lines 80-139) *)

Section VertexAI.

(** [ErrorFactory.prototype.create] and the constructor of
    [FirebaseError], both imported at line 18 from '@firebase/util',
    and the global object of the host. *)
Variable create :
  ErrorFactory -> VertexAIErrorCode -> list value -> completion value.
Variable FirebaseError : value -> value -> value -> completion frame.
Variable globalThis : frame.

Definition ERROR_FACTORY : ErrorFactory :=
  {| service := "vertexAI";
     serviceName := "VertexAI";
     errors := VertexAIErrorMessages |}.

(** The bindings of the module: its imports that exist at run time and
    its top-level declarations. *)
Definition module_scope : frame :=
  [("ErrorFactory", VFunction "ErrorFactory");
   ("FirebaseError", VFunction "FirebaseError");
   ("VertexAIErrorMessages", error_map VertexAIErrorMessages);
   ("ERROR_FACTORY",
    VObject [("service", VString (service ERROR_FACTORY));
             ("serviceName", VString (serviceName ERROR_FACTORY));
             ("errors", error_map (errors ERROR_FACTORY))]);
   ("VertexAIError", VFunction "VertexAIError");
   ("createVertexError", VFunction "createVertexError")].

(** What the body of the constructor of [VertexAIError] can see: its
    own parameters, then the module, then the global object.  The class
    is declared at the top level of the module, so the locals of its
    callers are not part of the chain. *)
Definition constructor_scope (code : VertexAIErrorCode) (data : list value)
  : list frame :=
  [ [("code", VString (code_value code)); ("data", VArray data)];
    module_scope;
    globalThis ].

(** [new VertexAIError(code, ...data)] (lines 115-123): the arguments of
    [super] are evaluated left to right, the base constructor
    initialises [this], the field initialiser [customData = {}] runs,
    and then the body assigns [customData]. *)
Definition new_VertexAIError (code : VertexAIErrorCode) (data : list value)
  : completion value :=
  let scope := constructor_scope code data in
  e1 <- resolve scope "firebaseError" ;;
  a1 <- get e1 "code" ;;
  e2 <- resolve scope "firebaseError" ;;
  a2 <- get e2 "message" ;;
  e3 <- resolve scope "firebaseError" ;;
  a3 <- get e3 "customData" ;;
  this <- FirebaseError a1 a2 a3 ;;
  let this := set_prop this "customData" (VObject []) in
  e4 <- resolve scope "firebaseError" ;;
  cd <- get e4 "customData" ;;
  Normal (VObject (set_prop this "customData"
                            (or_else (spread cd) (VObject [])))).

(** [createVertexError(code, ...data)] (lines 133-139).  The constant
    [firebaseError] is a local of this function. *)
Definition createVertexError (code : VertexAIErrorCode) (data : list value)
  : completion value :=
  firebaseError <- create ERROR_FACTORY code data ;;
  new_VertexAIError code data.

(** One complete record of parameters per code, as a call site would
    write it. *)
Definition sample_params (code : VertexAIErrorCode) : list value :=
  match code with
  | FETCH_ERROR =>
      [VObject [("url", VString "https://api.example.com/v1");
                ("message", VString "timeout")]]
  | INVALID_CONTENT => [VObject [("message", VString "no parts")]]
  | PARSE_FAILED => [VObject [("message", VString "unexpected token")]]
  | BAD_RESPONSE =>
      [VObject [("url", VString "u");
                ("status", VNumber 404);
                ("statusText", VString "Not Found");
                ("message", VString "missing")]]
  | RESPONSE_ERROR =>
      [VObject [("message", VString "blocked");
                ("response", VObject [("candidates", VArray [])])]]
  | NO_API_KEY | NO_MODEL | NO_PROJECT_ID => []
  end.

Definition bad_response_params (errorDetails : list value) : value :=
  VObject [("url", VString "u");
           ("status", VNumber 404);
           ("statusText", VString "Not Found");
           ("message", VString "missing");
           ("errorDetails", VArray errorDetails)].

Definition response_error_params (message : string) (response : value)
  : value :=
  VObject [("message", VString message); ("response", response)].

(** ** Templates and parameters *)

Lemma append_empty_r (s : string) : s ++ EmptyString = s.
Proof. induction s as [|c s IH]; cbn; [reflexivity|now rewrite IH]. Qed.

Lemma append_assoc (s1 s2 s3 : string) : (s1 ++ s2) ++ s3 = s1 ++ s2 ++ s3.
Proof. induction s1 as [|c s1 IH]; cbn; [reflexivity|now rewrite IH]. Qed.

Lemma scan_without_tokens (subst : string -> string) (s : string) :
  forall st, tokens st s = [] -> scan subst st s = pending st ++ s.
Proof.
  induction s as [|c rest IH]; intros st Htok; cbn [scan tokens] in *.
  - now rewrite append_empty_r.
  - destruct st as [| |name].
    + destruct (is_char c "{") eqn:Hc.
      * apply String.eqb_eq in Hc. injection Hc as ->.
        now rewrite IH.
      * now rewrite IH.
    + destruct (is_char c "$") eqn:Hd.
      * apply String.eqb_eq in Hd. injection Hd as ->.
        now rewrite IH.
      * destruct (is_char c "{") eqn:Hc.
        -- apply String.eqb_eq in Hc. injection Hc as ->.
           now rewrite IH.
        -- now rewrite IH.
    + destruct (is_char c "}") eqn:Hc.
      * apply String.eqb_eq in Hc. injection Hc as ->.
        destruct name; [|discriminate]. now rewrite IH.
      * rewrite IH by assumption. cbn [pending].
        now rewrite !append_assoc.
Qed.

(** A text without tokens is left as it is by the substitution. *)
Lemma replaceTemplate_without_placeholders
  (policy : FirebaseUtil.missing_policy) (template : string)
  (params : frame) :
  placeholders template = [] ->
  FirebaseUtil.replaceTemplate policy template params = template.
Proof.
  intros H. unfold FirebaseUtil.replaceTemplate.
  now rewrite scan_without_tokens.
Qed.

(** Every placeholder of a template is a required field of the
    parameters declared for its code. *)
Lemma placeholders_are_required_fields (code : VertexAIErrorCode)
  (name : string) :
  In name (placeholders (VertexAIErrorMessages code)) ->
  exists t, VertexAIErrorParams code = Some t /\ In name (required_fields t).
Proof.
  destruct code; cbn; intros H;
    try contradiction; eexists; (split; [reflexivity|]); cbn; tauto.
Qed.

(** The declared type of [customData] takes [status] as a string, while
    the parameters of [BAD_RESPONSE] carry it as a number. *)
Lemma customData_type_rejects_numeric_status :
  has_type customData_type (VObject [("status", VNumber 404)]) = false
  /\ has_type customData_type (VObject [("status", VString "404")]) = true.
Proof. split; reflexivity. Qed.

(** ** Identifier resolution in the constructor *)

Lemma firebaseError_not_in_module :
  lookup "firebaseError" module_scope = None.
Proof. reflexivity. Qed.

Lemma resolve_firebaseError (code : VertexAIErrorCode) (data : list value) :
  resolve (constructor_scope code data) "firebaseError"
  = match lookup "firebaseError" globalThis with
    | Some v => Normal v
    | None => Throw (ReferenceError "firebaseError")
    end.
Proof.
  unfold constructor_scope. cbn [resolve].
  change (lookup "firebaseError"
            [("code", VString (code_value code)); ("data", VArray data)])
    with (@None value).
  rewrite firebaseError_not_in_module. reflexivity.
Qed.

Lemma new_VertexAIError_unbound (code : VertexAIErrorCode)
  (data : list value) :
  lookup "firebaseError" globalThis = None ->
  new_VertexAIError code data = Throw (ReferenceError "firebaseError").
Proof.
  intros Hg. unfold new_VertexAIError. cbv zeta.
  rewrite resolve_firebaseError, Hg. reflexivity.
Qed.

Lemma createVertexError_unbound (code : VertexAIErrorCode)
  (data : list value) :
  lookup "firebaseError" globalThis = None ->
  createVertexError code data
  = (_ <- create ERROR_FACTORY code data ;;
     Throw (ReferenceError "firebaseError")).
Proof.
  intros Hg. unfold createVertexError.
  destruct (create ERROR_FACTORY code data); cbn [bind]; [|reflexivity].
  now apply new_VertexAIError_unbound.
Qed.

Lemma bind_throw_never_returns {A B : Type} (c : completion A)
  (exn : exception) :
  returns (_ <- c ;; @Throw B exn) = false.
Proof. destruct c; reflexivity. Qed.

(** The constructor consults neither [code] nor [data]: what it builds
    is read off the identifier [firebaseError] alone. *)
Lemma new_VertexAIError_ignores_arguments
  (code code' : VertexAIErrorCode) (data data' : list value) :
  new_VertexAIError code data = new_VertexAIError code' data'.
Proof.
  unfold new_VertexAIError. cbv zeta.
  rewrite !resolve_firebaseError. reflexivity.
Qed.

(** What the body does once the identifier resolves: the base
    constructor is given the three properties read off [firebaseError],
    and the [customData] of the new error is a copy of the third. *)
Lemma new_VertexAIError_bound (code : VertexAIErrorCode) (data : list value)
  (fe a1 a2 a3 : value) (this : frame) :
  lookup "firebaseError" globalThis = Some fe ->
  get fe "code" = Normal a1 ->
  get fe "message" = Normal a2 ->
  get fe "customData" = Normal a3 ->
  FirebaseError a1 a2 a3 = Normal this ->
  new_VertexAIError code data
  = Normal (VObject (set_prop (set_prop this "customData" (VObject []))
                              "customData" (spread a3))).
Proof.
  intros Hg H1 H2 H3 Hsuper. unfold new_VertexAIError. cbv zeta.
  rewrite !resolve_firebaseError, Hg. cbn [bind].
  rewrite H1, H2, H3. cbn [bind]. rewrite Hsuper. reflexivity.
Qed.

(** ** The outcome of [createVertexError] *)

Lemma sample_params_well_typed (code : VertexAIErrorCode) :
  well_typed_call code (sample_params code) = true.
Proof. destruct code; reflexivity. Qed.

(** C1: on a host whose global object has no [firebaseError], no call
    with well-typed parameters, for any code, returns an error whose
    code is the code of the call and whose message is free of
    placeholders: the call returns no error at all. *)
Theorem createVertexError_complete_params_no_error
  (code : VertexAIErrorCode) (data : list value) :
  lookup "firebaseError" globalThis = None ->
  well_typed_call code data = true ->
  ~ exists e m,
      createVertexError code data = Normal e /\
      get e "code" = Normal (VString (code_value code)) /\
      get e "message" = Normal (VString m) /\
      placeholders m = [].
Proof.
  intros Hg _ (e & m & Hret & _).
  rewrite (createVertexError_unbound code data Hg) in Hret.
  destruct (create ERROR_FACTORY code data); discriminate.
Qed.

(** C2: on a host whose global object has no [firebaseError], every
    call of [createVertexError] ends in a throw, whatever the code and
    the parameters: it is the exception of the factory if the factory
    throws, and the [ReferenceError] of the constructor otherwise. *)
Theorem createVertexError_always_throws
  (code : VertexAIErrorCode) (data : list value) :
  lookup "firebaseError" globalThis = None ->
  exists exn,
    createVertexError code data = Throw exn /\
    (returns (create ERROR_FACTORY code data) = true ->
     exn = ReferenceError "firebaseError").
Proof.
  intros Hg. rewrite (createVertexError_unbound code data Hg).
  destruct (create ERROR_FACTORY code data) as [fe|exn]; cbn.
  - eexists; split; [reflexivity|trivial].
  - exists exn; split; [reflexivity|discriminate].
Qed.

(** C4: the template of [NO_MODEL] is the static text of the claim, but
    on a host whose global object has no [firebaseError] the call
    without parameters, for each code that declares none, runs the
    factory and then throws a [ReferenceError] instead of returning an
    error with that message. *)
Theorem createVertexError_without_params (code : VertexAIErrorCode) :
  lookup "firebaseError" globalThis = None ->
  VertexAIErrorParams code = None ->
  VertexAIErrorMessages NO_MODEL
  = "Must provide a model name. Example: getGenerativeModel({ model: 'my-model-name' })"
  /\ placeholders (VertexAIErrorMessages code) = []
  /\ createVertexError code []
     = (_ <- create ERROR_FACTORY code [] ;;
        Throw (ReferenceError "firebaseError")).
Proof.
  intros Hg Hc. split; [reflexivity|]. split.
  - destruct code; try discriminate; reflexivity.
  - now apply createVertexError_unbound.
Qed.

(** C5: on a host whose global object has no [firebaseError], the
    [BAD_RESPONSE] call of scenario C runs the factory and then throws
    a [ReferenceError]; no message and no [customData.status] come
    back. *)
Theorem createVertexError_BAD_RESPONSE_scenario :
  lookup "firebaseError" globalThis = None ->
  createVertexError BAD_RESPONSE
    [VObject [("url", VString "u");
              ("status", VNumber 404);
              ("statusText", VString "Not Found");
              ("message", VString "missing")]]
  = (_ <- create ERROR_FACTORY BAD_RESPONSE (sample_params BAD_RESPONSE) ;;
     Throw (ReferenceError "firebaseError")).
Proof. intros Hg. now apply createVertexError_unbound. Qed.

(** C6: on a host whose global object has no [firebaseError], the
    [FETCH_ERROR] call of scenario A runs the factory and then throws a
    [ReferenceError]; no message comes back. *)
Theorem createVertexError_FETCH_ERROR_scenario :
  lookup "firebaseError" globalThis = None ->
  createVertexError FETCH_ERROR
    [VObject [("url", VString "https://api.example.com/v1");
              ("message", VString "timeout")]]
  = (_ <- create ERROR_FACTORY FETCH_ERROR (sample_params FETCH_ERROR) ;;
     Throw (ReferenceError "firebaseError")).
Proof. intros Hg. now apply createVertexError_unbound. Qed.

(** C7: on a host whose global object has no [firebaseError], a
    [RESPONSE_ERROR] call returns no error, whatever the response
    object; and what the constructor does is the same for any two
    responses. *)
Theorem createVertexError_RESPONSE_ERROR_response
  (message : string) (response response' : value) :
  lookup "firebaseError" globalThis = None ->
  returns (createVertexError RESPONSE_ERROR
             [response_error_params message response]) = false
  /\ new_VertexAIError RESPONSE_ERROR [response_error_params message response]
     = new_VertexAIError RESPONSE_ERROR
         [response_error_params message response'].
Proof.
  intros Hg. split.
  - rewrite (createVertexError_unbound _ _ Hg).
    apply bind_throw_never_returns.
  - apply new_VertexAIError_ignores_arguments.
Qed.

(** C8: on a host whose global object has no [firebaseError], a
    [BAD_RESPONSE] call with an [errorDetails] sequence returns no
    error, whatever the sequence; and what the constructor does is the
    same for any two sequences. *)
Theorem createVertexError_BAD_RESPONSE_errorDetails
  (errorDetails errorDetails' : list value) :
  lookup "firebaseError" globalThis = None ->
  returns (createVertexError BAD_RESPONSE
             [bad_response_params errorDetails]) = false
  /\ new_VertexAIError BAD_RESPONSE [bad_response_params errorDetails]
     = new_VertexAIError BAD_RESPONSE [bad_response_params errorDetails'].
Proof.
  intros Hg. split.
  - rewrite (createVertexError_unbound _ _ Hg).
    apply bind_throw_never_returns.
  - apply new_VertexAIError_ignores_arguments.
Qed.

End VertexAI.

(** ** The outcome on a concrete host

    The host of the instances below has an empty global object; the
    factory and the base class are the ones of [FirebaseUtil]. *)

Lemma createVertexError_complete_params_no_error_witness :
  lookup "firebaseError" [] = None /\
  well_typed_call FETCH_ERROR (sample_params FETCH_ERROR) = true /\
  ~ exists e m,
      createVertexError (FirebaseUtil.create FirebaseUtil.KeepToken)
        FirebaseUtil.FirebaseError [] FETCH_ERROR (sample_params FETCH_ERROR)
      = Normal e /\
      get e "code" = Normal (VString (code_value FETCH_ERROR)) /\
      get e "message" = Normal (VString m) /\
      placeholders m = [].
Proof.
  split; [reflexivity|]. split; [reflexivity|].
  apply (createVertexError_complete_params_no_error
           (FirebaseUtil.create FirebaseUtil.KeepToken)
           FirebaseUtil.FirebaseError [] FETCH_ERROR
           (sample_params FETCH_ERROR)); reflexivity.
Defined.

Lemma createVertexError_always_throws_witness :
  lookup "firebaseError" [] = None /\
  exists exn,
    createVertexError (FirebaseUtil.create FirebaseUtil.KeepToken)
      FirebaseUtil.FirebaseError [] NO_API_KEY [] = Throw exn /\
    (returns (FirebaseUtil.create FirebaseUtil.KeepToken
                ERROR_FACTORY NO_API_KEY []) = true ->
     exn = ReferenceError "firebaseError").
Proof.
  split; [reflexivity|].
  apply (createVertexError_always_throws
           (FirebaseUtil.create FirebaseUtil.KeepToken)
           FirebaseUtil.FirebaseError [] NO_API_KEY []); reflexivity.
Defined.

Lemma createVertexError_without_params_witness :
  lookup "firebaseError" [] = None /\
  VertexAIErrorParams NO_MODEL = None /\
  createVertexError (FirebaseUtil.create FirebaseUtil.KeepToken)
    FirebaseUtil.FirebaseError [] NO_MODEL []
  = Throw (ReferenceError "firebaseError").
Proof.
  split; [reflexivity|]. split; [reflexivity|].
  apply (createVertexError_without_params
           (FirebaseUtil.create FirebaseUtil.KeepToken)
           FirebaseUtil.FirebaseError [] NO_MODEL eq_refl eq_refl).
Defined.

Lemma createVertexError_BAD_RESPONSE_scenario_witness :
  lookup "firebaseError" [] = None /\
  createVertexError (FirebaseUtil.create FirebaseUtil.KeepToken)
    FirebaseUtil.FirebaseError [] BAD_RESPONSE
    [VObject [("url", VString "u");
              ("status", VNumber 404);
              ("statusText", VString "Not Found");
              ("message", VString "missing")]]
  = Throw (ReferenceError "firebaseError").
Proof.
  split; [reflexivity|].
  apply (createVertexError_BAD_RESPONSE_scenario
           (FirebaseUtil.create FirebaseUtil.KeepToken)
           FirebaseUtil.FirebaseError [] eq_refl).
Defined.

Lemma createVertexError_FETCH_ERROR_scenario_witness :
  lookup "firebaseError" [] = None /\
  createVertexError (FirebaseUtil.create FirebaseUtil.KeepToken)
    FirebaseUtil.FirebaseError [] FETCH_ERROR
    [VObject [("url", VString "https://api.example.com/v1");
              ("message", VString "timeout")]]
  = Throw (ReferenceError "firebaseError").
Proof.
  split; [reflexivity|].
  apply (createVertexError_FETCH_ERROR_scenario
           (FirebaseUtil.create FirebaseUtil.KeepToken)
           FirebaseUtil.FirebaseError [] eq_refl).
Defined.

Lemma createVertexError_RESPONSE_ERROR_response_witness :
  lookup "firebaseError" [] = None /\
  returns (createVertexError (FirebaseUtil.create FirebaseUtil.KeepToken)
             FirebaseUtil.FirebaseError [] RESPONSE_ERROR
             [response_error_params "blocked"
                (VObject [("candidates", VArray [])])]) = false.
Proof.
  split; [reflexivity|].
  apply (createVertexError_RESPONSE_ERROR_response
           (FirebaseUtil.create FirebaseUtil.KeepToken)
           FirebaseUtil.FirebaseError [] "blocked"
           (VObject [("candidates", VArray [])]) VNull eq_refl).
Defined.

Lemma createVertexError_BAD_RESPONSE_errorDetails_witness :
  lookup "firebaseError" [] = None /\
  returns (createVertexError (FirebaseUtil.create FirebaseUtil.KeepToken)
             FirebaseUtil.FirebaseError [] BAD_RESPONSE
             [bad_response_params
                [VObject [("reason", VString "API_KEY_INVALID")];
                 VObject [("domain", VString "googleapis.com")]]]) = false.
Proof.
  split; [reflexivity|].
  apply (createVertexError_BAD_RESPONSE_errorDetails
           (FirebaseUtil.create FirebaseUtil.KeepToken)
           FirebaseUtil.FirebaseError []
           [VObject [("reason", VString "API_KEY_INVALID")];
            VObject [("domain", VString "googleapis.com")]] [] eq_refl).
Defined.

(** The same scenario on a host whose global object does hold a
    [firebaseError], namely what the factory builds for it: the body of
    the constructor then copies its message and its [customData]. *)
Example scenario_C_when_firebaseError_is_global :
  createVertexError (FirebaseUtil.create FirebaseUtil.KeepToken)
    FirebaseUtil.FirebaseError
    [("firebaseError",
      VObject [("code", VString "bad-response");
               ("message",
                VString "Bad response from u: [404 Not Found] missing");
               ("customData",
                VObject [("url", VString "u"); ("status", VNumber 404);
                         ("statusText", VString "Not Found")])])]
    BAD_RESPONSE (sample_params BAD_RESPONSE)
  = Normal (VObject
      [("code", VString "bad-response");
       ("message", VString "Bad response from u: [404 Not Found] missing");
       ("customData",
        VObject [("url", VString "u"); ("status", VNumber 404);
                 ("statusText", VString "Not Found")])])
  /\ FirebaseUtil.create FirebaseUtil.KeepToken ERROR_FACTORY BAD_RESPONSE
       (sample_params BAD_RESPONSE)
     = Normal (VObject
         [("code", VString "bad-response");
          ("message",
           VString "Bad response from u: [404 Not Found] missing");
          ("customData",
           VObject [("url", VString "u"); ("status", VNumber 404);
                    ("statusText", VString "Not Found")])]).
Proof. split; reflexivity. Qed.

(** ** The shape of [ErrorDetails] *)

Lemma lookup_set_prop_other (f : frame) (k k' : string) (v : value) :
  k <> k' -> lookup k' (set_prop f k v) = lookup k' f.
Proof.
  intros Hne. induction f as [|[k0 v0] rest IH]; cbn.
  - destruct (String.eqb_spec k' k); [congruence|reflexivity].
  - destruct (String.eqb_spec k k0) as [->|Hk0]; cbn.
    + destruct (String.eqb_spec k' k0); [congruence|reflexivity].
    + now rewrite IH.
Qed.

Lemma has_type_ErrorDetails (props : frame) :
  has_type ErrorDetails (VObject props)
  = (match lookup "@type" props with
     | None => true
     | Some x => is_undefined x || has_type TString x
     end
     && (match lookup "reason" props with
         | None => true
         | Some x => is_undefined x || has_type TString x
         end
         && (match lookup "domain" props with
             | None => true
             | Some x => is_undefined x || has_type TString x
             end
             && (match lookup "metadata" props with
                 | None => true
                 | Some x => is_undefined x || has_type (TRecord TUnknown) x
                 end && true)))).
Proof.
  unfold ErrorDetails. cbn [has_type andb].
  replace (forallb _ props) with true; [now rewrite andb_true_r|].
  symmetry. apply forallb_forall. intros kv _. apply orb_true_r.
Qed.

(** C9, as the claim words it, fails: no field of [ErrorDetails] is
    named [type].  A property [type] is one of the arbitrary extra
    fields, of any value, while the recognised field [@type] has to be
    a string. *)
Lemma ErrorDetails_has_no_field_named_type :
  ~ (optional_fields ErrorDetails = ["type"; "reason"; "domain"; "metadata"])
  /\ ~ In "type" (field_names ErrorDetails)
  /\ has_type ErrorDetails (VObject [("type", VNumber 7)]) = true
  /\ has_type ErrorDetails (VObject [("@type", VNumber 7)]) = false.
Proof.
  split; [discriminate|]. split; [|split; reflexivity].
  cbn. intros [H|[H|[H|[H|[]]]]]; discriminate.
Qed.

(** C9 (amended): [ErrorDetails] is open-ended, any further
    string-keyed field of any value may be added to a record of that
    type, and its recognised fields, all optional, are named [@type],
    [reason], [domain] and [metadata], the last one a mapping nested in
    the record. *)
Theorem ErrorDetails_open_ended (props : frame) (k : string) (v : value) :
  has_type ErrorDetails (VObject props) = true ->
  ~ In k (field_names ErrorDetails) ->
  has_type ErrorDetails (VObject (set_prop props k v)) = true
  /\ field_names ErrorDetails = ["@type"; "reason"; "domain"; "metadata"]
  /\ optional_fields ErrorDetails = field_names ErrorDetails
  /\ index_signature ErrorDetails = Some TUnknown
  /\ has_type ErrorDetails (VObject []) = true
  /\ (forall m, has_type ErrorDetails (VObject [("metadata", VObject m)])
                = true)
  /\ has_type ErrorDetails (VObject [("metadata", VString "m")]) = false.
Proof.
  intros Hty Hk.
  split; [|repeat split; try reflexivity].
  - rewrite has_type_ErrorDetails in *.
    assert (Hne : forall name, In name (field_names ErrorDetails) ->
                               k <> name) by (intros name Hin ->; auto).
    rewrite !lookup_set_prop_other by (apply Hne; cbn; tauto).
    exact Hty.
  - intros m. rewrite has_type_ErrorDetails. cbn.
    rewrite andb_true_r. apply forallb_forall. reflexivity.
Qed.

Lemma ErrorDetails_open_ended_witness :
  has_type ErrorDetails
    (VObject [("@type", VString "type.googleapis.com/google.rpc.ErrorInfo");
              ("reason", VString "API_KEY_INVALID")]) = true /\
  ~ In "retryDelay" (field_names ErrorDetails) /\
  has_type ErrorDetails
    (VObject [("@type", VString "type.googleapis.com/google.rpc.ErrorInfo");
              ("reason", VString "API_KEY_INVALID");
              ("retryDelay", VNumber 30)]) = true.
Proof.
  assert (Hk : ~ In "retryDelay" (field_names ErrorDetails)).
  { cbn. intros [H|[H|[H|[H|[]]]]]; discriminate. }
  split; [reflexivity|]. split; [exact Hk|].
  apply (ErrorDetails_open_ended
           [("@type", VString "type.googleapis.com/google.rpc.ErrorInfo");
            ("reason", VString "API_KEY_INVALID")]
           "retryDelay" (VNumber 30) eq_refl Hk).
Defined.

(** ** The tables of the module *)

(** X1: the string values of the error codes (lines 21-30) are pairwise
    distinct: a code is determined by its value. *)
Theorem code_value_injective (c c' : VertexAIErrorCode) :
  code_value c = code_value c' -> c = c'.
Proof. destruct c, c'; intros H; try reflexivity; discriminate H. Qed.

Lemma code_value_injective_witness :
  code_value BAD_RESPONSE = "bad-response" /\ BAD_RESPONSE = BAD_RESPONSE.
Proof.
  split; [reflexivity|].
  apply (code_value_injective BAD_RESPONSE BAD_RESPONSE); reflexivity.
Defined.

(** X2: in the object that lines 32-49 build, whatever the messages
    are, the property named by the value of a code holds the message
    written for that code: no entry is shadowed by another one. *)
Theorem error_map_lookup (messages : VertexAIErrorCode -> string)
  (c : VertexAIErrorCode) :
  get (error_map messages) (code_value c) = Normal (VString (messages c)).
Proof. destruct c; reflexivity. Qed.

(** X3: the placeholders of the template of a code are exactly the
    required fields of its parameters other than [response].  So a code
    without parameters has a static message, every required string or
    number of the parameters is substituted into the message, and the
    optional [errorDetails] and the [response] object never are. *)
Theorem placeholders_exactly_required_fields (c : VertexAIErrorCode)
  (name : string) :
  In name (placeholders (VertexAIErrorMessages c)) <->
  name <> "response" /\
  exists t, VertexAIErrorParams c = Some t /\ In name (required_fields t).
Proof.
  split.
  - intros Hin. split.
    + intros ->. destruct c; cbn in Hin; intuition discriminate.
    + destruct c; cbn in Hin; try contradiction;
        eexists; (split; [reflexivity|]); cbn; tauto.
  - intros (Hne & t & Ht & Hin).
    destruct c; cbn in Ht; try discriminate Ht;
      injection Ht as <-; cbn in Hin |- *; intuition congruence.
Qed.

Ltac field_of H name :=
  let x := fresh "x" in
  let E := fresh "E" in
  destruct (lookup name _) as [x|] eqn:E in H;
  [ destruct x; cbn in H; try discriminate H | cbn in H; discriminate H ].

(** X4: in a call that is well typed, each placeholder of the template
    of the code names a property that the parameters do hold, and its
    value is a string or a number, never [undefined]. *)
Theorem well_typed_call_fills_placeholders (code : VertexAIErrorCode)
  (p : value) (name : string) :
  well_typed_call code [p] = true ->
  In name (placeholders (VertexAIErrorMessages code)) ->
  exists v, lookup name (own_properties p) = Some v /\
            has_type TString v || has_type TNumber v = true.
Proof.
  intros Hty Hin. unfold well_typed_call in Hty.
  destruct code; cbn [VertexAIErrorParams] in Hty; try discriminate Hty;
    destruct p; try discriminate Hty;
    cbn [own_properties]; cbn [has_type] in Hty; cbn in Hin.
  - field_of Hty "url". field_of Hty "message".
    destruct Hin as [<-|[<-|[]]]; eexists; (split; [eassumption|reflexivity]).
  - field_of Hty "message".
    destruct Hin as [<-|[]]; eexists; (split; [eassumption|reflexivity]).
  - field_of Hty "message".
    destruct Hin as [<-|[]]; eexists; (split; [eassumption|reflexivity]).
  - field_of Hty "url". field_of Hty "status".
    field_of Hty "statusText". field_of Hty "message".
    destruct Hin as [<-|[<-|[<-|[<-|[]]]]];
      eexists; (split; [eassumption|reflexivity]).
  - field_of Hty "message".
    destruct Hin as [<-|[]]; eexists; (split; [eassumption|reflexivity]).
Qed.

Lemma well_typed_call_fills_placeholders_witness :
  well_typed_call BAD_RESPONSE (sample_params BAD_RESPONSE) = true /\
  In "status" (placeholders (VertexAIErrorMessages BAD_RESPONSE)) /\
  exists v,
    lookup "status"
      [("url", VString "u"); ("status", VNumber 404);
       ("statusText", VString "Not Found"); ("message", VString "missing")]
    = Some v /\
    has_type TString v || has_type TNumber v = true.
Proof.
  split; [reflexivity|]. split; [cbn; tauto|].
  apply (well_typed_call_fills_placeholders BAD_RESPONSE
           (VObject [("url", VString "u"); ("status", VNumber 404);
                     ("statusText", VString "Not Found");
                     ("message", VString "missing")]) "status").
  - reflexivity.
  - cbn; tauto.
Defined.

(** X5: the declared fields of [customData] (lines 94-115) are the
    fields of the parameter records (lines 63-78) other than [message]:
    each parameter field but [message] has a place in [customData], and
    [customData] declares nothing that no code can supply. *)
Theorem customData_fields_are_params_fields (name : string) :
  In name (field_names customData_type) <->
  name <> "message" /\
  exists c t, VertexAIErrorParams c = Some t /\ In name (field_names t).
Proof.
  split.
  - cbn. intros [<-|[<-|[<-|[<-|[<-|[]]]]]]; (split; [discriminate|]).
    + exists FETCH_ERROR; eexists; split; [reflexivity|cbn; tauto].
    + exists BAD_RESPONSE; eexists; split; [reflexivity|cbn; tauto].
    + exists BAD_RESPONSE; eexists; split; [reflexivity|cbn; tauto].
    + exists BAD_RESPONSE; eexists; split; [reflexivity|cbn; tauto].
    + exists RESPONSE_ERROR; eexists; split; [reflexivity|cbn; tauto].
  - intros (Hm & c & t & Ht & Hin).
    destruct c; cbn in Ht; try discriminate Ht;
      injection Ht as <-; cbn in Hin |- *; intuition congruence.
Qed.

(** X6: the status of a well-typed [BAD_RESPONSE] call is a number
    (line 69), and [customData] declares its [status] as a string
    (line 102): no bag that carries the status of the call has the
    declared type of [customData]. *)
Theorem BAD_RESPONSE_status_not_of_customData_type (p : value) (cd : frame) :
  well_typed_call BAD_RESPONSE [p] = true ->
  lookup "status" cd = lookup "status" (own_properties p) ->
  has_type customData_type (VObject cd) = false.
Proof.
  intros Hty Hst. unfold well_typed_call in Hty.
  cbn [VertexAIErrorParams] in Hty.
  destruct p; try discriminate Hty.
  cbn [own_properties] in Hst. cbn [has_type] in Hty.
  field_of Hty "url". field_of Hty "status".
  unfold customData_type. cbn [has_type].
  rewrite Hst, E0. cbn.
  destruct (lookup "url" cd) as [x|]; [|reflexivity].
  now rewrite andb_false_r.
Qed.

Lemma BAD_RESPONSE_status_not_of_customData_type_witness :
  well_typed_call BAD_RESPONSE (sample_params BAD_RESPONSE) = true /\
  has_type customData_type
    (VObject [("url", VString "u"); ("status", VNumber 404);
              ("statusText", VString "Not Found")]) = false.
Proof.
  split; [reflexivity|].
  apply (BAD_RESPONSE_status_not_of_customData_type
           (VObject [("url", VString "u"); ("status", VNumber 404);
                     ("statusText", VString "Not Found");
                     ("message", VString "missing")])
           [("url", VString "u"); ("status", VNumber 404);
            ("statusText", VString "Not Found")]); reflexivity.
Defined.

(** ** What the constructor builds *)

Section Construction.

Variable create :
  ErrorFactory -> VertexAIErrorCode -> list value -> completion value.
Variable FirebaseError : value -> value -> value -> completion frame.

(** The outermost frame of a scope chain stands for the whole global
    environment of the host: the properties of the global object
    together with the top-level declarations of its scripts, a
    declaration going before a property of the same name. *)
Variable globalThis : frame.

Lemma lookup_set_prop_same (f : frame) (k : string) (v : value) :
  lookup k (set_prop f k v) = Some v.
Proof.
  induction f as [|[k0 v0] rest IH]; cbn.
  - now rewrite String.eqb_refl.
  - destruct (String.eqb_spec k k0) as [->|Hk0]; cbn.
    + now rewrite String.eqb_refl.
    + destruct (String.eqb_spec k k0); [congruence|exact IH].
Qed.

Lemma set_prop_fresh (f : frame) (k : string) (v : value) :
  ~ In k (keys f) -> set_prop f k v = (f ++ [(k, v)])%list.
Proof.
  induction f as [|[k0 v0] rest IH]; cbn; intros Hk; [reflexivity|].
  destruct (String.eqb_spec k k0) as [->|Hne]; [tauto|].
  rewrite IH by tauto. reflexivity.
Qed.

Lemma define_all_distinct (props : frame) :
  forall acc, NoDup (keys acc ++ keys props)%list ->
  fold_left (fun acc kv => set_prop acc (fst kv) (snd kv)) props acc
  = (acc ++ props)%list.
Proof.
  induction props as [|[k v] rest IH]; intros acc Hnd; cbn.
  - now rewrite app_nil_r.
  - cbn in Hnd.
    rewrite set_prop_fresh.
    + rewrite IH.
      * now rewrite <- app_assoc.
      * unfold keys. rewrite map_app. cbn. rewrite <- app_assoc. exact Hnd.
    + apply NoDup_remove_2 in Hnd. intros Hin. apply Hnd.
      apply in_or_app. now left.
Qed.

(** An object whose keys are distinct is copied as it is. *)
Lemma spread_distinct_keys (props : frame) :
  NoDup (keys props) -> spread (VObject props) = VObject props.
Proof.
  intros Hnd. unfold spread. cbn [own_properties].
  now rewrite define_all_distinct.
Qed.

Lemma new_VertexAIError_inv (code : VertexAIErrorCode) (data : list value)
  (e : value) :
  new_VertexAIError FirebaseError globalThis code data = Normal e ->
  exists fe a1 a2 a3 this,
    lookup "firebaseError" globalThis = Some fe /\
    get fe "code" = Normal a1 /\
    get fe "message" = Normal a2 /\
    get fe "customData" = Normal a3 /\
    FirebaseError a1 a2 a3 = Normal this /\
    e = VObject (set_prop (set_prop this "customData" (VObject []))
                          "customData" (spread a3)).
Proof.
  unfold new_VertexAIError. cbv zeta.
  rewrite !resolve_firebaseError.
  destruct (lookup "firebaseError" globalThis) as [fe|]; [|discriminate].
  cbn [bind].
  destruct (get fe "code") as [a1|] eqn:E1; [|discriminate].
  destruct (get fe "message") as [a2|] eqn:E2; [|discriminate].
  destruct (get fe "customData") as [a3|] eqn:E3; [|discriminate].
  cbn [bind].
  destruct (FirebaseError a1 a2 a3) as [this|] eqn:E4; [|discriminate].
  cbn [bind]. intros H. injection H as <-.
  exists fe, a1, a2, a3, this. repeat split; assumption || reflexivity.
Qed.

(** X7: two calls for which the factory returns have the same outcome,
    whatever their codes and parameters: the error that a caller gets,
    or the exception, does not depend on what the call was given. *)
Theorem createVertexError_same_outcome
  (code code' : VertexAIErrorCode) (data data' : list value) :
  returns (create ERROR_FACTORY code data) = true ->
  returns (create ERROR_FACTORY code' data') = true ->
  createVertexError create FirebaseError globalThis code data
  = createVertexError create FirebaseError globalThis code' data'.
Proof.
  unfold createVertexError. intros H H'.
  destruct (create ERROR_FACTORY code data); [|discriminate H].
  destruct (create ERROR_FACTORY code' data'); [|discriminate H'].
  cbn [bind]. apply new_VertexAIError_ignores_arguments.
Qed.

(** X8: the constructor returns exactly when the identifier
    [firebaseError] is bound in the global environment, the outermost
    frame of its scope chain, be it by a property of the global object
    or by a top-level declaration of a script, the value bound is
    neither [undefined] nor [null] (its three properties can be read),
    and the constructor of the base class returns on them. *)
Theorem new_VertexAIError_returns_iff
  (code : VertexAIErrorCode) (data : list value) :
  returns (new_VertexAIError FirebaseError globalThis code data) = true <->
  exists fe a1 a2 a3,
    lookup "firebaseError" globalThis = Some fe /\
    get fe "code" = Normal a1 /\
    get fe "message" = Normal a2 /\
    get fe "customData" = Normal a3 /\
    returns (FirebaseError a1 a2 a3) = true.
Proof.
  split.
  - destruct (new_VertexAIError FirebaseError globalThis code data)
      as [e|] eqn:E; [intros _|discriminate].
    apply new_VertexAIError_inv in E.
    destruct E as (fe & a1 & a2 & a3 & this & Hg & H1 & H2 & H3 & H4 & _).
    exists fe, a1, a2, a3. rewrite H4. repeat split; assumption.
  - intros (fe & a1 & a2 & a3 & Hg & H1 & H2 & H3 & H4).
    unfold new_VertexAIError. cbv zeta.
    rewrite !resolve_firebaseError, Hg. cbn [bind].
    rewrite H1, H2, H3. cbn [bind].
    destruct (FirebaseError a1 a2 a3); [reflexivity|discriminate H4].
Qed.

(** X9: the [customData] of an error that the constructor returns is
    always an object, a copy of [firebaseError.customData] made by the
    spread: the empty object when that is [undefined], and never what
    the base constructor or the field initialiser had stored. *)
Theorem new_VertexAIError_customData
  (code : VertexAIErrorCode) (data : list value) (e : value) :
  new_VertexAIError FirebaseError globalThis code data = Normal e ->
  exists fe cd,
    lookup "firebaseError" globalThis = Some fe /\
    get fe "customData" = Normal cd /\
    get e "customData" = Normal (spread cd) /\
    (cd = VUndefined -> get e "customData" = Normal (VObject [])).
Proof.
  intros E. apply new_VertexAIError_inv in E.
  destruct E as (fe & a1 & a2 & a3 & this & Hg & _ & _ & H3 & _ & ->).
  exists fe, a3. split; [exact Hg|]. split; [exact H3|].
  assert (Hcd : get (VObject (set_prop (set_prop this "customData" (VObject []))
                                       "customData" (spread a3))) "customData"
                = Normal (spread a3)).
  { cbn [get]. now rewrite lookup_set_prop_same. }
  split; [exact Hcd|]. intros ->. exact Hcd.
Qed.

(** X10: when [firebaseError.customData] is an object with distinct
    keys, the [customData] of the constructed error is equal to it,
    property for property and in the same order. *)
Theorem new_VertexAIError_customData_verbatim
  (code : VertexAIErrorCode) (data : list value) (e : value)
  (fe cd : frame) :
  lookup "firebaseError" globalThis = Some (VObject fe) ->
  lookup "customData" fe = Some (VObject cd) ->
  NoDup (keys cd) ->
  new_VertexAIError FirebaseError globalThis code data = Normal e ->
  get e "customData" = Normal (VObject cd).
Proof.
  intros Hg Hcd Hnd E. apply new_VertexAIError_inv in E.
  destruct E as (fe' & a1 & a2 & a3 & this & Hg' & _ & _ & H3 & _ & ->).
  rewrite Hg in Hg'. injection Hg' as <-.
  cbn [get] in H3. rewrite Hcd in H3. injection H3 as <-.
  cbn [get]. rewrite lookup_set_prop_same.
  now rewrite spread_distinct_keys.
Qed.

(** X11: apart from [customData], every property of the constructed
    error is the one that the constructor of the base class stored,
    given the code, the message and the [customData] of
    [firebaseError]; the constructor adds and changes nothing else. *)
Theorem new_VertexAIError_other_properties
  (code : VertexAIErrorCode) (data : list value) (e : value) (k : string) :
  new_VertexAIError FirebaseError globalThis code data = Normal e ->
  k <> "customData" ->
  exists fe a1 a2 a3 this,
    lookup "firebaseError" globalThis = Some fe /\
    get fe "code" = Normal a1 /\
    get fe "message" = Normal a2 /\
    get fe "customData" = Normal a3 /\
    FirebaseError a1 a2 a3 = Normal this /\
    get e k = get (VObject this) k.
Proof.
  intros E Hk. apply new_VertexAIError_inv in E.
  destruct E as (fe & a1 & a2 & a3 & this & Hg & H1 & H2 & H3 & H4 & ->).
  exists fe, a1, a2, a3, this. repeat split; try assumption.
  cbn [get]. rewrite !lookup_set_prop_other by congruence. reflexivity.
Qed.

(** C3: on a host where [firebaseError] is bound in the global
    environment to an object whose [customData] holds a field that the
    parameters of the code do not declare, a call for which the factory
    and the base constructor return does construct an error, and the
    [customData] of that error holds that field: the bag is copied from
    [firebaseError], it is not assembled from the parameters of the
    call. *)
Theorem createVertexError_customData_leak
  (code : VertexAIErrorCode) (data : list value) (fe cd this : frame)
  (a1 a2 : value) :
  lookup "firebaseError" globalThis = Some (VObject fe) ->
  get (VObject fe) "code" = Normal a1 ->
  get (VObject fe) "message" = Normal a2 ->
  lookup "customData" fe = Some (VObject cd) ->
  NoDup (keys cd) ->
  ~ incl (keys cd) (diagnostic_params code) ->
  returns (create ERROR_FACTORY code data) = true ->
  FirebaseError a1 a2 (VObject cd) = Normal this ->
  exists e bag,
    createVertexError create FirebaseError globalThis code data = Normal e /\
    get e "customData" = Normal (VObject bag) /\
    ~ incl (keys bag) (diagnostic_params code).
Proof.
  intros Hg H1 H2 Hcd Hnd Hleak Hret Hsuper.
  assert (H3 : get (VObject fe) "customData" = Normal (VObject cd)).
  { cbn [get]. now rewrite Hcd. }
  unfold createVertexError.
  destruct (create ERROR_FACTORY code data); [|discriminate Hret].
  cbn [bind].
  rewrite (new_VertexAIError_bound FirebaseError globalThis code data
             (VObject fe) a1 a2 (VObject cd) this Hg H1 H2 H3 Hsuper).
  eexists. exists cd. split; [reflexivity|]. split; [|exact Hleak].
  cbn [get]. rewrite lookup_set_prop_same.
  now rewrite spread_distinct_keys.
Qed.

End Construction.

(** The instances below run on a host whose global object holds a
    [firebaseError] left by an earlier [BAD_RESPONSE]. *)

Lemma createVertexError_same_outcome_witness :
  returns (FirebaseUtil.create FirebaseUtil.KeepToken ERROR_FACTORY
             FETCH_ERROR (sample_params FETCH_ERROR)) = true /\
  returns (FirebaseUtil.create FirebaseUtil.KeepToken ERROR_FACTORY
             NO_MODEL []) = true /\
  createVertexError (FirebaseUtil.create FirebaseUtil.KeepToken)
    FirebaseUtil.FirebaseError
    [("firebaseError",
      VObject [("code", VString "bad-response");
               ("message", VString "Bad response from u");
               ("customData", VObject [("url", VString "u")])])]
    FETCH_ERROR (sample_params FETCH_ERROR)
  = createVertexError (FirebaseUtil.create FirebaseUtil.KeepToken)
      FirebaseUtil.FirebaseError
      [("firebaseError",
        VObject [("code", VString "bad-response");
                 ("message", VString "Bad response from u");
                 ("customData", VObject [("url", VString "u")])])]
      NO_MODEL [].
Proof.
  split; [reflexivity|]. split; [reflexivity|].
  apply (createVertexError_same_outcome
           (FirebaseUtil.create FirebaseUtil.KeepToken)
           FirebaseUtil.FirebaseError _
           FETCH_ERROR NO_MODEL (sample_params FETCH_ERROR) []);
    reflexivity.
Defined.

Lemma new_VertexAIError_customData_witness :
  exists fe cd,
    lookup "firebaseError"
      [("firebaseError",
        VObject [("code", VString "bad-response");
                 ("message", VString "Bad response from u")])]
    = Some fe /\
    get fe "customData" = Normal cd /\
    get (VObject [("code", VString "bad-response");
                  ("message", VString "Bad response from u");
                  ("customData", VObject [])]) "customData"
    = Normal (spread cd) /\
    (cd = VUndefined ->
     get (VObject [("code", VString "bad-response");
                   ("message", VString "Bad response from u");
                   ("customData", VObject [])]) "customData"
     = Normal (VObject [])).
Proof.
  apply (new_VertexAIError_customData FirebaseUtil.FirebaseError
           [("firebaseError",
             VObject [("code", VString "bad-response");
                      ("message", VString "Bad response from u")])]
           FETCH_ERROR (sample_params FETCH_ERROR)).
  reflexivity.
Defined.

Lemma new_VertexAIError_customData_verbatim_witness :
  NoDup (keys [("url", VString "u"); ("status", VNumber 404)]) /\
  get (VObject [("code", VString "bad-response");
                ("message", VString "Bad response from u");
                ("customData",
                 VObject [("url", VString "u"); ("status", VNumber 404)])])
      "customData"
  = Normal (VObject [("url", VString "u"); ("status", VNumber 404)]).
Proof.
  assert (Hnd : NoDup (keys [("url", VString "u"); ("status", VNumber 404)])).
  { cbn. repeat constructor; cbn; intuition discriminate. }
  split; [exact Hnd|].
  apply (new_VertexAIError_customData_verbatim FirebaseUtil.FirebaseError
           [("firebaseError",
             VObject [("code", VString "bad-response");
                      ("message", VString "Bad response from u");
                      ("customData",
                       VObject [("url", VString "u");
                                ("status", VNumber 404)])])]
           RESPONSE_ERROR (sample_params RESPONSE_ERROR) _
           [("code", VString "bad-response");
            ("message", VString "Bad response from u");
            ("customData",
             VObject [("url", VString "u"); ("status", VNumber 404)])]
           [("url", VString "u"); ("status", VNumber 404)]
           eq_refl eq_refl Hnd eq_refl).
Defined.

Lemma new_VertexAIError_other_properties_witness :
  "message" <> "customData" /\
  exists fe a1 a2 a3 this,
    lookup "firebaseError"
      [("firebaseError",
        VObject [("code", VString "bad-response");
                 ("message", VString "Bad response from u");
                 ("customData", VObject [("url", VString "u")])])]
    = Some fe /\
    get fe "code" = Normal a1 /\
    get fe "message" = Normal a2 /\
    get fe "customData" = Normal a3 /\
    FirebaseUtil.FirebaseError a1 a2 a3 = Normal this /\
    get (VObject [("code", VString "bad-response");
                  ("message", VString "Bad response from u");
                  ("customData", VObject [("url", VString "u")])]) "message"
    = get (VObject this) "message".
Proof.
  split; [discriminate|].
  apply (new_VertexAIError_other_properties FirebaseUtil.FirebaseError
           [("firebaseError",
             VObject [("code", VString "bad-response");
                      ("message", VString "Bad response from u");
                      ("customData", VObject [("url", VString "u")])])]
           NO_MODEL []); [reflexivity|discriminate].
Defined.

Lemma createVertexError_customData_leak_witness :
  well_typed_call FETCH_ERROR (sample_params FETCH_ERROR) = true /\
  diagnostic_params FETCH_ERROR = ["url"] /\
  exists e bag,
    createVertexError (FirebaseUtil.create FirebaseUtil.KeepToken)
      FirebaseUtil.FirebaseError
      [("firebaseError",
        VObject [("code", VString "bad-response");
                 ("message", VString "Bad response from u");
                 ("customData",
                  VObject [("url", VString "u"); ("status", VNumber 404);
                           ("statusText", VString "Not Found")])])]
      FETCH_ERROR (sample_params FETCH_ERROR) = Normal e /\
    get e "customData" = Normal (VObject bag) /\
    ~ incl (keys bag) (diagnostic_params FETCH_ERROR).
Proof.
  split; [reflexivity|]. split; [reflexivity|].
  apply (createVertexError_customData_leak
           (FirebaseUtil.create FirebaseUtil.KeepToken)
           FirebaseUtil.FirebaseError
           [("firebaseError",
             VObject [("code", VString "bad-response");
                      ("message", VString "Bad response from u");
                      ("customData",
                       VObject [("url", VString "u"); ("status", VNumber 404);
                                ("statusText", VString "Not Found")])])]
           FETCH_ERROR (sample_params FETCH_ERROR)
           [("code", VString "bad-response");
            ("message", VString "Bad response from u");
            ("customData",
             VObject [("url", VString "u"); ("status", VNumber 404);
                      ("statusText", VString "Not Found")])]
           [("url", VString "u"); ("status", VNumber 404);
            ("statusText", VString "Not Found")]
           [("code", VString "bad-response");
            ("message", VString "Bad response from u");
            ("customData",
             VObject [("url", VString "u"); ("status", VNumber 404);
                      ("statusText", VString "Not Found")])]
           (VString "bad-response") (VString "Bad response from u")
           eq_refl eq_refl eq_refl eq_refl).
  - cbn. repeat constructor; cbn; intuition discriminate.
  - cbn. intros H.
    destruct (H "status" (or_intror (or_introl eq_refl))) as [E|[]].
    discriminate E.
  - reflexivity.
  - reflexivity.
Defined.
